(** * reproTransformers: the training notebook [example_01_transformer_training]

    A shallow embedding of the notebook's glue code: batch loss and its
    normalisation, the [while global_step < MAX_STEPS] loop with its two
    [try]/[except] blocks, the bounded evaluation pass, and checkpoint
    naming.  Tensors, the transformer, the optimizer and the loaders are
    collaborators of the notebook and appear as the fields of a class. *)

From Stdlib Require Import String Ascii DecimalString DecimalNat.
From Stdlib Require Import List ZArith QArith Qcanon Lia Bool Arith.
Import ListNotations.

Set Implicit Arguments.
Local Open Scope nat_scope.

(** ** Scalar losses

    A scalar float tensor is modelled by an exact rational extended with
    the three non-finite values the notebook can produce by dividing;
    rounding is not modelled. *)
Module Scalar.

Inductive fval : Type :=
| Fin (q : Qc)
| PInf
| NInf
| NaN.


Definition Qc_of_Z (n : Z) : Qc := Q2Qc (inject_Z n).

Definition sign_of (q : Qc) : comparison := Qccompare q (Qc_of_Z 0).

(** [a / n] for a float scalar [a] and an integer scalar [n] (true
    division; the integer is promoted, so a zero divisor is [+0.0]). *)
Definition fdiv_int (a : fval) (n : Z) : fval :=
  match a with
  | Fin q =>
      if (n =? 0)%Z then
        match sign_of q with
        | Eq => NaN
        | Gt => PInf
        | Lt => NInf
        end
      else Fin (Qcdiv q (Qc_of_Z n))
  | PInf => if (n <? 0)%Z then NInf else PInf
  | NInf => if (n <? 0)%Z then PInf else NInf
  | NaN => NaN
  end.

Definition fadd (a b : fval) : fval :=
  match a, b with
  | NaN, _ | _, NaN => NaN
  | Fin p, Fin q => Fin (Qcplus p q)
  | PInf, NInf | NInf, PInf => NaN
  | PInf, _ | _, PInf => PInf
  | NInf, _ | _, NInf => NInf
  end.

Definition fsum (l : list fval) : fval :=
  fold_left fadd l (Fin (Qc_of_Z 0)).

(** [np.mean] of a Python list of floats: sum over count; on the empty
    list this is [0.0 / 0]. *)
Definition np_mean (l : list fval) : fval :=
  fdiv_int (fsum l) (Z.of_nat (length l)).

End Scalar.
Import Scalar.

(** ** Batches

    [x, y_in, y_true, x_lens, y_lens = batch]: three integer matrices
    (one row per example) and two integer vectors. *)
Record Batch : Type := mkBatch {
  x : list (list Z);
  y_in : list (list Z);
  y_true : list (list Z);
  x_lens : list Z;
  y_lens : list Z
}.

(** [torch.sum] of an integer vector. *)
Definition torch_sum (v : list Z) : Z := fold_right Z.add 0%Z v.


(** ** Configuration

    The notebook's [training config] cell; the three float settings
    ([INIT_LR], [MAX_LR], [GRAD_CLIP]) live inside the collaborators. *)
Class Config : Type := mkConfig {
  MAX_SEQ_LEN : nat;
  VOCAB_SIZE : nat;
  BATCH_SIZE : nat;
  WARM_STEPS : nat;
  COOL_STEPS : nat;
  MAX_STEPS : nat;
  EVAL_EVERY : nat;
  EVAL_STEPS : nat;
  LOSS_WIN : nat;
  DEMO_JUST_ONE_ITRE : bool
}.

(** ** Exceptions and the places that can raise them *)
Inductive exn : Type :=
| StopIteration       (* an exhausted iterator *)
| HorizonError        (* OneCycleLR's ValueError: stepped more than total_steps times *)
| ZeroDivisionError
| KeyboardInterrupt
| RuntimeError
| OSError.

(** The calls of one pass through the loop body, in program order. *)
Inductive site : Type :=
| AtNext        (* batch = next(train_iterator), inside the try *)
| AtRestart     (* iter(train_dataloader); next(train_iterator), inside the handler *)
| AtForward     (* .to("cuda"), mytransformer(...), criterion, the division *)
| AtBackward    (* loss.backward(), clip_grad_norm_, optimizer.step() *)
| AtScheduler   (* scheduler.step() *)
| AtRecord      (* optimizer.zero_grad(), loss.item(), the progress bar *)
| AtDueCheck    (* global_step % EVAL_EVERY *)
| AtEvaluate    (* the pass over valid_dataloader *)
| AtInfer       (* greedy decoding of the sample sentences *)
| AtSave.       (* torch.save *)

(** ** Collaborators

    Everything the notebook calls but does not define: the model and its
    optimizer, the schedule's formula, the two data loaders, and what the
    outside world makes a call raise. *)
Class Collaborators : Type := mkCollaborators {
  (** the score vector the model emits for one target position *)
  Logits : Type;
  (** cross-entropy of one position against its label (a finite,
      rounding-free stand-in for [-log softmax(logits)[label]]) *)
  ce : Logits -> Z -> Qc;
  (** parameters of [mytransformer] together with the optimizer's moments *)
  Model : Type;
  (** the model a run starts from ([mytransformer.initialize()]) *)
  initial_model : Model;
  LR : Type;
  (** [mytransformer(x, y_in, x_lens, y_lens)] in train mode at a given
      global step (dropout varies from step to step) and in eval mode *)
  forward_train : Model -> nat -> Batch -> list (list Logits);
  forward_eval : Model -> Batch -> list (list Logits);
  (** [loss.backward(); clip_grad_norm_(..., GRAD_CLIP); optimizer.step()] *)
  optimizer_update : Model -> LR -> nat -> Batch -> Model;
  (** the learning rate OneCycleLR assigns at schedule position [n] *)
  lr_at : nat -> LR;
  (** [mytransformer.infer_one_greedy] wrapped by the two tokenizers *)
  infer_one_greedy : Model -> string -> string;
  (** the batches of the [n]-th pass over [train_dataloader] (shuffled) *)
  train_dataloader : nat -> list Batch;
  (** the batches of a pass over [valid_dataloader] (not shuffled) *)
  valid_dataloader : list Batch;
  (** the exception, if any, that a call raises at a given global step
      for reasons of its own (device, disk, worker, interrupt) *)
  fault : site -> nat -> option exn
}.

(** ** Loss of one batch *)
Section Loss.

Context {W : Collaborators}.

(** [ignore_index=0] *)
Definition ignore_index : Z := 0%Z.

(** One row of [criterion]: positions whose label is [ignore_index]
    contribute nothing. *)
Fixpoint criterion_row (pred : list Logits) (tgt : list Z) : Qc :=
  match pred, tgt with
  | p :: pred', t :: tgt' =>
      Qcplus (if (t =? ignore_index)%Z then Qc_of_Z 0 else ce p t)
             (criterion_row pred' tgt')
  | _, _ => Qc_of_Z 0
  end.

Fixpoint criterion_rows (y_pred : list (list Logits)) (tgt : list (list Z)) : Qc :=
  match y_pred, tgt with
  | r :: y_pred', t :: tgt' => Qcplus (criterion_row r t) (criterion_rows y_pred' tgt')
  | _, _ => Qc_of_Z 0
  end.

(** [criterion = torch.nn.CrossEntropyLoss(ignore_index=0, reduction="sum")]
    applied to [y_pred.transpose(1, 2)] and [y_true]; [y_pred] is kept
    here in its (example, position) layout. *)
Definition criterion (y_pred : list (list Logits)) (tgt : list (list Z)) : fval :=
  Fin (criterion_rows y_pred tgt).

(** Training step:
    [loss = criterion(y_pred.transpose(1, 2), y_true)]
    [loss /= torch.sum(y_lens)] *)
Definition train_loss (y_pred : list (list Logits)) (batch : Batch) : fval :=
  let loss := criterion y_pred (y_true batch) in
  fdiv_int loss (torch_sum (y_lens batch)).

(** Evaluation step: the same two lines inside [torch.no_grad()]. *)
Definition eval_loss (y_pred : list (list Logits)) (batch : Batch) : fval :=
  let loss := criterion y_pred (y_true batch) in
  fdiv_int loss (torch_sum (y_lens batch)).

(** *** The loss as the specification words it *)









End Loss.

(** ** Dataset examples and the collator *)

(** One dataset item: (source ids, target-input ids, target-label ids). *)
Record Example : Type := mkExample {
  source_ids : list Z;
  target_input_ids : list Z;
  target_label_ids : list Z
}.

Module Collate.

(** Modelled from the spec: [pad_to_seq_len] lives in [mytransformers.data],
    which the notebook imports; this is one row of its padding: cut at
    the configured maximum length, then filled with zeros up to it. *)
Definition pad_row (max_seq_len : nat) (ids : list Z) : list Z :=
  firstn max_seq_len ids ++ repeat 0%Z (max_seq_len - length ids).

(** Modelled from the spec: the length the collator records for a row,
    its true (unpadded) length. *)
Definition true_len (ids : list Z) : Z := Z.of_nat (length ids).

(** Modelled from the spec: [pad_to_seq_len] of [mytransformers.data],
    the [collate_fn] of both loaders: fixed-shape zero-padded matrices
    plus the per-example lengths. *)
Definition pad_to_seq_len (examples : list Example) (max_seq_len : nat) : Batch :=
  {| x := map (fun e => pad_row max_seq_len (source_ids e)) examples;
     y_in := map (fun e => pad_row max_seq_len (target_input_ids e)) examples;
     y_true := map (fun e => pad_row max_seq_len (target_label_ids e)) examples;
     x_lens := map (fun e => true_len (source_ids e)) examples;
     y_lens := map (fun e => true_len (target_label_ids e)) examples |}.

(** [torch.utils.data.DataLoader] grouping: consecutive groups of
    [batch_size] items, the last one possibly shorter. *)
Fixpoint chunks_fuel {A : Type} (fuel batch_size : nat) (items : list A) : list (list A) :=
  match fuel with
  | O => []
  | S fuel' =>
      match items with
      | [] => []
      | _ :: _ =>
          firstn batch_size items :: chunks_fuel fuel' batch_size (skipn batch_size items)
      end
  end.

Definition chunks {A : Type} (batch_size : nat) (items : list A) : list (list A) :=
  chunks_fuel (length items) batch_size items.

(** One pass of
    [DataLoader(dataset, batch_size=BATCH_SIZE, collate_fn=partial(pad_to_seq_len, max_seq_len=MAX_SEQ_LEN))]
    over the items in the order the sampler visits them. *)
Definition dataloader_pass {cfg : Config} (items : list Example) : list Batch :=
  map (fun group => pad_to_seq_len group MAX_SEQ_LEN) (chunks BATCH_SIZE items).



End Collate.

(** ** Checkpoint file names *)
Module Naming.

Local Open Scope string_scope.

(** [str(n)] for a non-negative integer. *)
Definition str_of_nat (n : nat) : string := NilEmpty.string_of_uint (Nat.to_uint n).

Fixpoint zeros (k : nat) : string :=
  match k with
  | O => EmptyString
  | S k' => String "0" (zeros k')
  end.

(** ["{:08d}".format(n)]: decimal digits, zero-filled on the left up to
    width 8 and never cut. *)
Definition format_08d (n : nat) : string :=
  let digits := str_of_nat n in
  zeros (8 - String.length digits) ++ digits.

(** [str.replace] for a non-empty [old], scanning left to right;
    [skip] counts the characters of a match still to be dropped. *)
Fixpoint replace_from (old new : string) (skip : nat) (s : string) : string :=
  match s with
  | EmptyString => EmptyString
  | String c s' =>
      match skip with
      | S k => replace_from old new k s'
      | O =>
          if String.prefix old s
          then new ++ replace_from old new (String.length old - 1) s'
          else String c (replace_from old new 0 s')
      end
  end.

(** With an empty [old], Python puts [new] before every character and
    at the end. *)
Fixpoint intersperse (new s : string) : string :=
  match s with
  | EmptyString => new
  | String c s' => new ++ String c (intersperse new s')
  end.

(** Python's [s.replace(old, new)]. *)
Definition str_replace (s old new : string) : string :=
  match old with
  | EmptyString => intersperse new s
  | String _ _ => replace_from old new 0 s
  end.

(** [checkpoint_file = "/mnt/data/checkpoints/translation_en_nl/checkpoint_v{}.pt".format(VOCAB_SIZE)] *)
Definition checkpoint_file {cfg : Config} : string :=
  "/mnt/data/checkpoints/translation_en_nl/checkpoint_v" ++ str_of_nat VOCAB_SIZE ++ ".pt".

(** [checkpoint_file.replace(".pt", "-{:08d}.pt".format(global_step))] *)
Definition checkpoint_path {cfg : Config} (global_step : nat) : string :=
  str_replace checkpoint_file ".pt" ("-" ++ format_08d global_step ++ ".pt").

(** The part of every checkpoint path that does not depend on the step. *)
Definition checkpoint_prefix {cfg : Config} : string :=
  "/mnt/data/checkpoints/translation_en_nl/checkpoint_v" ++ str_of_nat VOCAB_SIZE ++ "-".

(** A string without a full stop cannot contain [".pt"]. *)
Fixpoint no_dot (s : string) : bool :=
  match s with
  | EmptyString => true
  | String c s' => negb (Ascii.eqb c ".") && no_dot s'
  end.

(** Reading a run of decimal digits back (leading zeros allowed). *)
Definition parse_nat (s : string) : option nat :=
  option_map Nat.of_uint (NilEmpty.uint_of_string s).

Definition sample_sentences : list string :=
  [ "The key goal of the structural funds is to strengthen social and economic cohesion between the regions within the European Union.";
    "There is, in fact, a risk of a military coup in the future.";
    "This means that there must be a comprehensive partnership between local authorities and national governments with regard to how these funds are to be spent." ].

End Naming.

(** ** The training loop *)
Section Loop.

Context {W : Collaborators} {cfg : Config}.

(** The dictionary handed to [torch.save]. *)
Record Checkpoint : Type := mkCheckpoint {
  ck_epoch : nat;
  ck_global_step : nat;
  model_state_dict : Model;
  optimizer_state_dict : LR;
  scheduler_state_dict : nat;
  ck_windowed_losses : list fval;
  avg_loss : fval;
  ck_eval_loss : fval;
  batch_size : nat
}.

Inductive event : Type :=
| PrintCycle (epoch1 step : nat) (loss avg : fval)   (* "... avg this cycle: ..." *)
| PrintEvaluating                                     (* "evaluating..." *)
| PrintEvalLoss (epoch1 : nat) (loss : fval)          (* "... eval loss: ..." *)
| PrintSample (src prd : string)
| Save (ckpt : Checkpoint) (path : string)            (* torch.save(ckpt, path) *)
| PrintCheckpointSaved
| PrintBreaking.

Record State : Type := mkState {
  global_step : nat;
  epoch : nat;
  train_iterator : list Batch;  (* the batches the current iterator has yet to yield *)
  passes_started : nat;  (* how many times iter(train_dataloader) has been called *)
  mytransformer : Model;
  last_epoch : nat;  (* scheduler.last_epoch *)
  lr : LR;  (* the optimizer's current learning rate *)
  windowed_losses : list fval;
  span_losses : list fval;
  scheduler_calls : list nat;  (* ghost: the global steps at which scheduler.step() was entered, newest first *)
  raised : list (site * nat * exn);  (* ghost: every exception raised so far, newest first *)
  output : list event  (* what was printed and saved, newest first *)
}.

Definition set_global_step (v : nat) (s : State) : State :=
  {| global_step := v; epoch := epoch s; train_iterator := train_iterator s;
     passes_started := passes_started s; mytransformer := mytransformer s;
     last_epoch := last_epoch s; lr := lr s; windowed_losses := windowed_losses s;
     span_losses := span_losses s; scheduler_calls := scheduler_calls s;
     raised := raised s; output := output s |}.

Definition set_epoch (v : nat) (s : State) : State :=
  {| global_step := global_step s; epoch := v; train_iterator := train_iterator s;
     passes_started := passes_started s; mytransformer := mytransformer s;
     last_epoch := last_epoch s; lr := lr s; windowed_losses := windowed_losses s;
     span_losses := span_losses s; scheduler_calls := scheduler_calls s;
     raised := raised s; output := output s |}.

Definition set_train_iterator (v : list Batch) (s : State) : State :=
  {| global_step := global_step s; epoch := epoch s; train_iterator := v;
     passes_started := passes_started s; mytransformer := mytransformer s;
     last_epoch := last_epoch s; lr := lr s; windowed_losses := windowed_losses s;
     span_losses := span_losses s; scheduler_calls := scheduler_calls s;
     raised := raised s; output := output s |}.

Definition set_passes_started (v : nat) (s : State) : State :=
  {| global_step := global_step s; epoch := epoch s;
     train_iterator := train_iterator s; passes_started := v;
     mytransformer := mytransformer s; last_epoch := last_epoch s; lr := lr s;
     windowed_losses := windowed_losses s; span_losses := span_losses s;
     scheduler_calls := scheduler_calls s; raised := raised s; output := output s |}.

Definition set_mytransformer (v : Model) (s : State) : State :=
  {| global_step := global_step s; epoch := epoch s;
     train_iterator := train_iterator s; passes_started := passes_started s;
     mytransformer := v; last_epoch := last_epoch s; lr := lr s;
     windowed_losses := windowed_losses s; span_losses := span_losses s;
     scheduler_calls := scheduler_calls s; raised := raised s; output := output s |}.

Definition set_last_epoch (v : nat) (s : State) : State :=
  {| global_step := global_step s; epoch := epoch s;
     train_iterator := train_iterator s; passes_started := passes_started s;
     mytransformer := mytransformer s; last_epoch := v; lr := lr s;
     windowed_losses := windowed_losses s; span_losses := span_losses s;
     scheduler_calls := scheduler_calls s; raised := raised s; output := output s |}.

Definition set_lr (v : LR) (s : State) : State :=
  {| global_step := global_step s; epoch := epoch s;
     train_iterator := train_iterator s; passes_started := passes_started s;
     mytransformer := mytransformer s; last_epoch := last_epoch s; lr := v;
     windowed_losses := windowed_losses s; span_losses := span_losses s;
     scheduler_calls := scheduler_calls s; raised := raised s; output := output s |}.

Definition set_windowed_losses (v : list fval) (s : State) : State :=
  {| global_step := global_step s; epoch := epoch s;
     train_iterator := train_iterator s; passes_started := passes_started s;
     mytransformer := mytransformer s; last_epoch := last_epoch s; lr := lr s;
     windowed_losses := v; span_losses := span_losses s;
     scheduler_calls := scheduler_calls s; raised := raised s; output := output s |}.

Definition set_span_losses (v : list fval) (s : State) : State :=
  {| global_step := global_step s; epoch := epoch s;
     train_iterator := train_iterator s; passes_started := passes_started s;
     mytransformer := mytransformer s; last_epoch := last_epoch s; lr := lr s;
     windowed_losses := windowed_losses s; span_losses := v;
     scheduler_calls := scheduler_calls s; raised := raised s; output := output s |}.

Definition set_scheduler_calls (v : list nat) (s : State) : State :=
  {| global_step := global_step s; epoch := epoch s;
     train_iterator := train_iterator s; passes_started := passes_started s;
     mytransformer := mytransformer s; last_epoch := last_epoch s; lr := lr s;
     windowed_losses := windowed_losses s; span_losses := span_losses s;
     scheduler_calls := v; raised := raised s; output := output s |}.

Definition set_raised (v : list (site * nat * exn)) (s : State) : State :=
  {| global_step := global_step s; epoch := epoch s;
     train_iterator := train_iterator s; passes_started := passes_started s;
     mytransformer := mytransformer s; last_epoch := last_epoch s; lr := lr s;
     windowed_losses := windowed_losses s; span_losses := span_losses s;
     scheduler_calls := scheduler_calls s; raised := v; output := output s |}.

Definition set_output (v : list event) (s : State) : State :=
  {| global_step := global_step s; epoch := epoch s;
     train_iterator := train_iterator s; passes_started := passes_started s;
     mytransformer := mytransformer s; last_epoch := last_epoch s; lr := lr s;
     windowed_losses := windowed_losses s; span_losses := span_losses s;
     scheduler_calls := scheduler_calls s; raised := raised s; output := v |}.
(** *** A state-and-exception monad for the loop body

    A raise keeps the state reached so far: Python undoes nothing. *)
Inductive res (A : Type) : Type :=
| Ok (a : A) (s : State)
| Raise (e : exn) (s : State).
Arguments Ok {A} a s.
Arguments Raise {A} e s.

Definition M (A : Type) : Type := State -> res A.

Definition ret {A : Type} (a : A) : M A := fun s => Ok a s.

Definition bind {A B : Type} (m : M A) (k : A -> M B) : M B :=
  fun s =>
    match m s with
    | Ok a s' => k a s'
    | Raise e s' => Raise e s'
    end.

Definition get : M State := fun s => Ok s s.

Definition modify (f : State -> State) : M unit := fun s => Ok tt (f s).

(** [raise e] at call site [c]. *)
Definition throw {A : Type} (c : site) (e : exn) : M A :=
  fun s => Raise e (set_raised ((c, global_step s, e) :: raised s) s).

(** A call that raises whatever the outside world makes it raise. *)
Definition call (c : site) : M unit :=
  fun s =>
    match fault c (global_step s) with
    | Some e => throw c e s
    | None => Ok tt s
    end.

(** [try: m  except <those e with handler e = Some h>: h] *)
Definition try_except {A : Type} (m : M A) (handler : exn -> option (M A)) : M A :=
  fun s =>
    match m s with
    | Ok a s' => Ok a s'
    | Raise e s' =>
        match handler e with
        | Some h => h s'
        | None => Raise e s'
        end
    end.

Definition emit (ev : event) : M unit :=
  modify (fun s => set_output (ev :: output s) s).

Notation "x <- m ;; k" := (bind m (fun x => k))
  (at level 61, m at next level, right associativity).
Notation "m ;; k" := (bind m (fun _ => k))
  (at level 61, right associativity).

(** *** Fetching a batch *)

(** [next(train_iterator)] *)
Definition next_train_iterator (c : site) : M Batch :=
  call c ;;
  s <- get ;;
  match train_iterator s with
  | [] => throw c StopIteration
  | batch :: rest => modify (set_train_iterator rest) ;; ret batch
  end.

(** [train_iterator = iter(train_dataloader)] *)
Definition iter_train_dataloader : M unit :=
  modify (fun s =>
    set_passes_started (S (passes_started s))
      (set_train_iterator (train_dataloader (passes_started s)) s)).

(** [[
    try:
        batch = next(train_iterator)
    except StopIteration:
        epoch += 1
        train_iterator = iter(train_dataloader)
        batch = next(train_iterator)
    ]] *)
Definition on_StopIteration : exn -> option (M Batch) :=
  fun e =>
    match e with
    | StopIteration =>
        Some (modify (fun s => set_epoch (S (epoch s)) s) ;;
              iter_train_dataloader ;;
              next_train_iterator AtRestart)
    | _ => None
    end.

Definition fetch_batch : M Batch :=
  try_except (next_train_iterator AtNext) on_StopIteration.

(** *** One optimisation step *)

(** From moving the batch to the device up to [optimizer.step()]. *)
Definition train_on (batch : Batch) : M fval :=
  call AtForward ;;
  s <- get ;;
  let y_pred := forward_train (mytransformer s) (global_step s) batch in
  let loss := train_loss y_pred batch in
  call AtBackward ;;
  modify (set_mytransformer
            (optimizer_update (mytransformer s) (lr s) (global_step s) batch)) ;;
  ret loss.

(** *** The scheduler *)

(** [total_steps=WARM_STEPS+COOL_STEPS] *)
Definition total_steps : nat := WARM_STEPS + COOL_STEPS.

(** [OneCycleLR.step()]: the position advances, then the schedule is
    read; reading beyond [total_steps] raises. *)
Definition scheduler_step : M unit :=
  modify (fun s => set_scheduler_calls (global_step s :: scheduler_calls s) s) ;;
  call AtScheduler ;;
  modify (fun s => set_last_epoch (S (last_epoch s)) s) ;;
  s <- get ;;
  if total_steps <? last_epoch s
  then throw AtScheduler HorizonError
  else modify (set_lr (lr_at (last_epoch s))).

(** The bare [except: pass]. *)
Definition on_anything : exn -> option (M unit) := fun _ => Some (ret tt).

(** [[
    if global_step < (WARM_STEPS + COOL_STEPS):
        try:
            scheduler.step()
        except:
            pass
    ]] *)
Definition step_scheduler : M unit :=
  s <- get ;;
  if global_step s <? WARM_STEPS + COOL_STEPS
  then try_except scheduler_step on_anything
  else ret tt.

(** *** Loss bookkeeping *)

(** [l[-n:]] on a Python list; [l[-0:]] is the whole list. *)
Definition last_n {A : Type} (n : nat) (l : list A) : list A :=
  match n with
  | O => l
  | S _ => skipn (length l - n) l
  end.

(** [[
    optimizer.zero_grad()
    span_losses.append(loss.item())
    windowed_losses.append(loss.item())
    windowed_losses = windowed_losses[-LOSS_WIN:]
    ]] *)
Definition record_loss (loss : fval) : M unit :=
  call AtRecord ;;
  modify (fun s => set_span_losses (span_losses s ++ [loss]) s) ;;
  modify (fun s => set_windowed_losses (windowed_losses s ++ [loss]) s) ;;
  modify (fun s => set_windowed_losses (last_n LOSS_WIN (windowed_losses s)) s).

(** *** Evaluation *)

(** [[
    for idx, batch in enumerate(valid_dataloader):
        ...
        eval_losses.append(loss.item())
        if idx >= EVAL_STEPS:
            break
    ]] *)
Fixpoint eval_loop (model : Model) (idx : nat) (batches : list Batch)
         (eval_losses : list fval) : list fval :=
  match batches with
  | [] => eval_losses
  | batch :: rest =>
      let y_pred := forward_eval model batch in
      let loss := eval_loss y_pred batch in
      let eval_losses := eval_losses ++ [loss] in
      if EVAL_STEPS <=? idx then eval_losses
      else eval_loop model (S idx) rest eval_losses
  end.

(** The loss one validation batch contributes. *)
Definition batch_eval_loss (model : Model) (b : Batch) : fval :=
  eval_loss (forward_eval model b) b.

(** The number printed after "eval loss:". *)
Definition reported_eval_loss (model : Model) : fval :=
  np_mean (eval_loop model 0 valid_dataloader []).

(** Greedy decoding of the three sample sentences, one printout each
    (newest first, like [output]). *)
Definition sample_printouts (model : Model) : list event :=
  rev (map (fun sample => PrintSample sample (infer_one_greedy model sample))
           Naming.sample_sentences).

Definition print_samples (model : Model) : M unit :=
  modify (fun s => set_output (sample_printouts model ++ output s) s).

(** The body of [if global_step % EVAL_EVERY == 0:]; its result says
    whether the loop is left by [break]. *)
Definition evaluate_and_save (loss : fval) : M bool :=
  s <- get ;;
  emit (PrintCycle (epoch s + 1) (global_step s) loss (np_mean (span_losses s))) ;;
  emit PrintEvaluating ;;
  call AtEvaluate ;;
  let eval_losses := eval_loop (mytransformer s) 0 valid_dataloader [] in
  emit (PrintEvalLoss (epoch s + 1) (np_mean eval_losses)) ;;
  call AtInfer ;;
  print_samples (mytransformer s) ;;
  call AtSave ;;
  emit (Save {| ck_epoch := epoch s + 1;
                ck_global_step := global_step s;
                model_state_dict := mytransformer s;
                optimizer_state_dict := lr s;
                scheduler_state_dict := last_epoch s;
                ck_windowed_losses := windowed_losses s;
                avg_loss := np_mean (windowed_losses s);
                ck_eval_loss := np_mean eval_losses;
                batch_size := BATCH_SIZE |}
             (Naming.checkpoint_path (global_step s))) ;;
  emit PrintCheckpointSaved ;;
  modify (set_span_losses []) ;;
  if DEMO_JUST_ONE_ITRE
  then emit PrintBreaking ;; ret true
  else ret false.

(** [global_step % EVAL_EVERY == 0]; Python raises on a zero modulus. *)
Definition eval_is_due : M bool :=
  s <- get ;;
  match EVAL_EVERY with
  | O => throw AtDueCheck ZeroDivisionError
  | S _ => ret (global_step s mod EVAL_EVERY =? 0)
  end.

(** *** The loop *)

(** One pass through the body of [while global_step < MAX_STEPS:]. *)
Definition loop_body : M bool :=
  modify (fun s => set_global_step (S (global_step s)) s) ;;
  batch <- fetch_batch ;;
  loss <- train_on batch ;;
  step_scheduler ;;
  record_loss loss ;;
  due <- eval_is_due ;;
  if due then evaluate_and_save loss else ret false.

Inductive outcome : Type :=
| Finished (s : State)            (* the loop was left normally *)
| Halted (e : exn) (s : State).   (* an exception left the loop *)

(** [while global_step < MAX_STEPS: ...]; [None] when [fuel] passes
    through the body were not enough. *)
Fixpoint train_loop (fuel : nat) (s : State) : option outcome :=
  if global_step s <? MAX_STEPS then
    match fuel with
    | O => None
    | S fuel' =>
        match loop_body s with
        | Ok true s' => Some (Finished s')
        | Ok false s' => train_loop fuel' s'
        | Raise e s' => Some (Halted e s')
        end
    end
  else Some (Finished s).

(** The cell's first lines, after the scheduler has been built. *)
Definition init_state : State :=
  {| global_step := 0;
     epoch := 0;
     train_iterator := train_dataloader 0;
     passes_started := 1;
     mytransformer := initial_model;
     last_epoch := 0;
     lr := lr_at 0;
     windowed_losses := [];
     span_losses := [];
     scheduler_calls := [];
     raised := [];
     output := [] |}.

Definition run : option outcome := train_loop MAX_STEPS init_state.

Definition final_state (o : outcome) : State :=
  match o with
  | Finished s => s
  | Halted _ s => s
  end.

(** *** Reading the output *)

Definition is_eval_print (ev : event) : bool :=
  match ev with PrintEvalLoss _ _ => true | _ => false end.

(** The paths [torch.save] wrote to, newest first. *)
Fixpoint saved_paths (out : list event) : list string :=
  match out with
  | [] => []
  | Save _ path :: out' => path :: saved_paths out'
  | _ :: out' => saved_paths out'
  end.

(** The global steps at which a checkpoint was saved, newest first. *)
Fixpoint saved_steps (out : list event) : list nat :=
  match out with
  | [] => []
  | Save ckpt _ :: out' => ck_global_step ckpt :: saved_steps out'
  | _ :: out' => saved_steps out'
  end.

(** An exception that one of the two handlers takes: [StopIteration]
    out of the guarded [next], or anything out of [scheduler.step()]. *)
Definition is_handled (r : site * nat * exn) : bool :=
  match r with
  | (AtNext, _, StopIteration) => true
  | (AtScheduler, _, _) => true
  | _ => false
  end.

(** How many evaluation losses were printed. *)
Definition eval_prints (out : list event) : nat := length (filter is_eval_print out).

(** The state at the head of the loop after [k] complete passes through
    the body, none of which left the loop. *)
Fixpoint after_steps (k : nat) : option State :=
  match k with
  | O => Some init_state
  | S k' =>
      match after_steps k' with
      | Some s =>
          if global_step s <? MAX_STEPS then
            match loop_body s with
            | Ok false s' => Some s'
            | _ => None
            end
          else None
      | None => None
      end
  end.

(** A logged horizon error that did not come out of the scheduler's own
    bound check but was raised by the outside world. *)
Definition from_outside_if_horizon (r : site * nat * exn) : Prop :=
  match r with
  | (c, g, HorizonError) => fault c g = Some HorizonError
  | _ => True
  end.

(** An exception one of the two handlers takes. *)
Definition handled (r : site * nat * exn) : Prop := is_handled r = true.

(** A pass either leaves the scheduler alone or enters [scheduler.step()]
    once, and the latter only while the counter is below the horizon. *)
Definition scheduler_delta (s s' : State) : Prop :=
  (scheduler_calls s' = scheduler_calls s
   /\ last_epoch s' = last_epoch s /\ lr s' = lr s)
  \/ (S (global_step s) < WARM_STEPS + COOL_STEPS
      /\ scheduler_calls s' = S (global_step s) :: scheduler_calls s
      /\ (last_epoch s' = last_epoch s \/ last_epoch s' = S (last_epoch s))).

(** A pass writes at most one checkpoint, under the path of its own
    step; a pass that raises has written none. *)
Definition saved_delta (s s' : State) : Prop :=
  (saved_steps (output s') = saved_steps (output s)
   /\ saved_paths (output s') = saved_paths (output s))
  \/ (saved_steps (output s') = S (global_step s) :: saved_steps (output s)
      /\ saved_paths (output s')
         = Naming.checkpoint_path (S (global_step s)) :: saved_paths (output s)).

(** What holds of the scheduler at the head of the loop and at its end. *)
Record scheduler_inv (s : State) : Prop := mkSchedulerInv {
  calls_bounded : length (scheduler_calls s) <= Nat.min (global_step s) (total_steps - 1);
  position_bounded : last_epoch s <= length (scheduler_calls s);
  calls_in_range :
    Forall (fun g => 1 <= g <= global_step s /\ g < WARM_STEPS + COOL_STEPS)
           (scheduler_calls s);
  horizon_only_from_outside : Forall from_outside_if_horizon (raised s)
}.

(** What holds of the files written so far. *)
Record saved_inv (s : State) : Prop := mkSavedInv {
  paths_named : saved_paths (output s) = map Naming.checkpoint_path (saved_steps (output s));
  steps_past : Forall (fun g => g <= global_step s) (saved_steps (output s));
  steps_distinct : NoDup (saved_steps (output s))
}.

End Loop.

Arguments Ok {W A} a s.
Arguments Raise {W A} e s.

(** ** Statements that are tested against the code *)


(** "Each evaluation averages over at most [EVAL_STEPS] validation
    batches and never over the full validation set": the losses averaged
    are those of the first [k] validation batches for some [k] that is at
    most [EVAL_STEPS] and less than the number of validation batches. *)
Definition evaluation_is_capped_and_partial : Prop :=
  forall (W : Collaborators) (cfg : Config) (model : Model),
  exists k : nat,
    k <= EVAL_STEPS /\ k < length valid_dataloader
    /\ eval_loop model 0 valid_dataloader []
       = map (batch_eval_loss model) (firstn k valid_dataloader).

(** "Every exception other than iterator exhaustion and a scheduler step
    past its horizon propagates and halts the process": whatever was
    raised during a run, if it is neither [StopIteration] nor the
    scheduler's horizon error, is what the run halted with. *)
Definition every_other_exception_halts : Prop :=
  forall (W : Collaborators) (cfg : Config) (o : outcome)
         (c : site) (g : nat) (e : exn),
    run = Some o ->
    In (c, g, e) (raised (final_state o)) ->
    e <> StopIteration -> e <> HorizonError ->
    o = Halted e (final_state o).


(** ** Concrete collaborators and batches used in the examples *)
Module Toy.

(** Two examples, padded to width 3; three real target tokens. *)
Definition batch : Batch :=
  {| x := [[4; 9; 0]; [8; 0; 0]]%Z;
     y_in := [[2; 5; 0]; [2; 0; 0]]%Z;
     y_true := [[5; 3; 0]; [3; 0; 0]]%Z;
     x_lens := [2; 1]%Z;
     y_lens := [2; 1]%Z |}.


(** A world in which every position costs one unit of cross-entropy,
    each pass over either loader yields [batch] once, and no call
    fails for outside reasons. *)
Definition world_with (faults : site -> nat -> option exn) : Collaborators :=
  {| Logits := Qc;
     ce := fun p _ => p;
     Model := nat;
     initial_model := 0;
     LR := nat;
     forward_train := fun _ _ b => map (map (fun _ => Qc_of_Z 1)) (y_true b);
     forward_eval := fun _ b => map (map (fun _ => Qc_of_Z 1)) (y_true b);
     optimizer_update := fun m _ _ _ => S m;
     lr_at := fun n => n;
     infer_one_greedy := fun _ s => s;
     train_dataloader := fun _ => [batch];
     valid_dataloader := [batch];
     fault := faults |}.

Definition world : Collaborators := world_with (fun _ _ => None).


(** The notebook's configuration cut down to a few steps. *)
Definition config (max_steps eval_every warm cool : nat) (demo : bool) : Config :=
  {| MAX_SEQ_LEN := 3;
     VOCAB_SIZE := 16;
     BATCH_SIZE := 16;
     WARM_STEPS := warm;
     COOL_STEPS := cool;
     MAX_STEPS := max_steps;
     EVAL_EVERY := eval_every;
     EVAL_STEPS := 5;
     LOSS_WIN := 32;
     DEMO_JUST_ONE_ITRE := demo |}.


(** Four steps of training on a two-step schedule. *)
Definition past_schedule : Config := config 4 5 1 1 false.

(** A budget equal to the schedule length. *)
Definition budget_is_schedule : Config := config 3 5 1 2 false.

(** Two steps, no evaluation due. *)
Definition short_run : Config := config 2 5 1 4 false.

(** The end-to-end scenario: two steps, evaluation at every step. *)
Definition scenario (demo : bool) : Config := config 2 1 1 4 demo.

(** The head of the loop at step 3 of [past_schedule]. *)
Definition late_state : @State world :=
  set_global_step 3 (@init_state world).

(** The head of the loop after the first pass of [short_run]: the only
    batch of the pass has been used. *)
Definition after_one_pass : @State world :=
  match @after_steps world short_run 1 with
  | Some s => s
  | None => @init_state world
  end.

(** An interrupt arrives while [scheduler.step()] runs at step 1. *)
Definition interrupted_scheduler : Collaborators :=
  world_with (fun c g =>
    match c, g with
    | AtScheduler, 1 => Some KeyboardInterrupt
    | _, _ => None
    end).

(** The forward pass fails at step 2. *)
Definition failing_forward : Collaborators :=
  world_with (fun c g =>
    match c, g with
    | AtForward, 2 => Some RuntimeError
    | _, _ => None
    end).

(** Ten sentence pairs. *)
Definition corpus : list Example :=
  repeat {| source_ids := [4; 9]%Z;
            target_input_ids := [2; 5]%Z;
            target_label_ids := [5; 3]%Z |} 10.

(** A world whose loaders read the ten-line corpus. *)
Definition corpus_world (cfg : Config) : Collaborators :=
  {| Logits := Qc;
     ce := fun p _ => p;
     Model := nat;
     initial_model := 0;
     LR := nat;
     forward_train := fun _ _ b => map (map (fun _ => Qc_of_Z 1)) (y_true b);
     forward_eval := fun _ b => map (map (fun _ => Qc_of_Z 1)) (y_true b);
     optimizer_update := fun m _ _ _ => S m;
     lr_at := fun n => n;
     infer_one_greedy := fun _ s => s;
     train_dataloader := fun _ => Collate.dataloader_pass corpus;
     valid_dataloader := Collate.dataloader_pass corpus;
     fault := fun _ _ => None |}.

End Toy.

(** * Properties *)

(** ** Loss *)
Section LossFacts.

Context {W : Collaborators}.











End LossFacts.









(** ** The collator and the loaders *)
Section CollateFacts.

Import Collate.






End CollateFacts.



(** ** Checkpoint paths *)
Section NamingFacts.

Import Naming.
Local Open Scope string_scope.

Lemma append_nil_r (s : string) : s ++ "" = s.
Proof. induction s as [|c s IH]; simpl; [reflexivity | rewrite IH; reflexivity]. Qed.

Lemma append_assoc (a b c : string) : (a ++ b) ++ c = a ++ (b ++ c).
Proof. induction a as [|x a IH]; simpl; [reflexivity | rewrite IH; reflexivity]. Qed.

Lemma length_append (a b : string) :
  String.length (a ++ b) = String.length a + String.length b.
Proof. induction a as [|x a IH]; simpl; [reflexivity | rewrite IH; reflexivity]. Qed.

Lemma append_cancel_l (a s t : string) : a ++ s = a ++ t -> s = t.
Proof.
  induction a as [|x a IH]; simpl; intros H; [exact H|].
  injection H as H. auto.
Qed.

Lemma append_cancel_r (s1 s2 t : string) : s1 ++ t = s2 ++ t -> s1 = s2.
Proof.
  revert s2; induction s1 as [|c1 s1 IH]; intros [|c2 s2] H; simpl in H.
  - reflexivity.
  - apply (f_equal String.length) in H. simpl in H. rewrite length_append in H. lia.
  - apply (f_equal String.length) in H. simpl in H. rewrite length_append in H. lia.
  - injection H as -> H. f_equal. apply IH. exact H.
Qed.

Lemma no_dot_append (a b : string) :
  no_dot a = true -> no_dot b = true -> no_dot (a ++ b) = true.
Proof.
  induction a as [|c a IH]; simpl; intros Ha Hb; [exact Hb|].
  apply andb_prop in Ha as [Hc Ha]. rewrite Hc. simpl. auto.
Qed.

Lemma no_dot_digits (d : Decimal.uint) : no_dot (NilEmpty.string_of_uint d) = true.
Proof. induction d; simpl; auto. Qed.

(** [".pt"] is found only at the end of a dot-free stem. *)
Lemma replace_extension (stem new : string) :
  no_dot stem = true ->
  str_replace (stem ++ ".pt") ".pt" new = stem ++ new.
Proof.
  unfold str_replace.
  induction stem as [|c stem IH]; intros Hs.
  - simpl. apply append_nil_r.
  - simpl in Hs. apply andb_prop in Hs as [Hc Hs].
    change (String c stem ++ ".pt") with (String c (stem ++ ".pt")).
    cbn [replace_from prefix].
    destruct (ascii_dec "." c) as [<-|_]; [discriminate Hc|].
    rewrite IH by exact Hs. reflexivity.
Qed.

Lemma parse_zero_filled (k : nat) (d : Decimal.uint) :
  parse_nat (zeros k ++ NilEmpty.string_of_uint d) = Some (Nat.of_uint d).
Proof.
  unfold parse_nat. induction k as [|k IH]; simpl.
  - rewrite NilEmpty.usu. reflexivity.
  - destruct (NilEmpty.uint_of_string (zeros k ++ NilEmpty.string_of_uint d)) as [u|];
      simpl in *; [|discriminate].
    injection IH as IH. rewrite <- IH. reflexivity.
Qed.

Lemma parse_format_08d (n : nat) : parse_nat (format_08d n) = Some n.
Proof.
  unfold format_08d, str_of_nat. rewrite parse_zero_filled, Unsigned.of_to. reflexivity.
Qed.

Lemma format_08d_inj (n m : nat) : format_08d n = format_08d m -> n = m.
Proof.
  intros H. apply (f_equal parse_nat) in H. rewrite !parse_format_08d in H.
  injection H as H. exact H.
Qed.

Lemma format_08d_width (n : nat) : 8 <= String.length (format_08d n).
Proof.
  unfold format_08d. rewrite length_append.
  assert (Hz : forall k, String.length (zeros k) = k)
    by (induction k as [|k IH]; simpl; [reflexivity | rewrite IH; reflexivity]).
  rewrite Hz. lia.
Qed.

Context {cfg : Config}.

Lemma checkpoint_path_shape (g : nat) :
  checkpoint_path g = checkpoint_prefix ++ format_08d g ++ ".pt".
Proof.
  unfold checkpoint_path, checkpoint_file, checkpoint_prefix.
  rewrite <- (append_assoc _ (str_of_nat VOCAB_SIZE) ".pt").
  rewrite replace_extension.
  - rewrite !append_assoc. reflexivity.
  - apply no_dot_append; [reflexivity | apply no_dot_digits].
Qed.

Lemma checkpoint_path_inj (g1 g2 : nat) :
  checkpoint_path g1 = checkpoint_path g2 -> g1 = g2.
Proof.
  rewrite !checkpoint_path_shape. intros H.
  apply append_cancel_l in H. apply append_cancel_r in H.
  apply format_08d_inj. exact H.
Qed.

End NamingFacts.

(** ** The loop *)
Section LoopFacts.

Context {W : Collaborators} {cfg : Config}.

Ltac unfold_body :=
  cbv beta delta [loop_body fetch_batch next_train_iterator iter_train_dataloader
    on_StopIteration train_on step_scheduler scheduler_step on_anything
    record_loss eval_is_due evaluate_and_save print_samples emit
    try_except call throw modify get ret bind].

Ltac simpl_body :=
  cbn -[Nat.modulo Nat.ltb Nat.leb Nat.eqb np_mean eval_loop train_loss
        Naming.checkpoint_path total_steps sample_printouts app].

Ltac split_cases :=
  repeat (simpl_body;
          match goal with
          | |- context [match fault ?c ?g with _ => _ end] =>
              destruct (fault c g) as [?e|] eqn:?
          | |- context [match ?e with StopIteration => _ | _ => _ end] =>
              is_var e; destruct e
          | |- context [match train_iterator ?s with _ => _ end] =>
              destruct (train_iterator s) eqn:?
          | |- context [match train_dataloader ?n with _ => _ end] =>
              destruct (train_dataloader n) eqn:?
          | |- context [if ?b then _ else _] => destruct b eqn:?
          | |- context [match EVAL_EVERY with _ => _ end] =>
              destruct EVAL_EVERY eqn:?
          end).

(** Every pass through the body, completed or not, has counted itself. *)
Lemma loop_body_counts (s : State) :
  match loop_body s with
  | Ok _ s' => global_step s' = S (global_step s)
  | Raise _ s' => global_step s' = S (global_step s)
  end.
Proof.
  unfold_body. split_cases. all: reflexivity.
Qed.

Lemma loop_body_scheduler (s : State) :
  match loop_body s with
  | Ok _ s' => scheduler_delta s s'
  | Raise _ s' => scheduler_delta s s'
  end.
Proof.
  unfold scheduler_delta. unfold_body. split_cases.
  all: try (left; repeat split; reflexivity).
  all: right; (split; [ apply Nat.ltb_lt; assumption | ]);
    (split; [ reflexivity | ]); first [ left; reflexivity | right; reflexivity ].
Qed.

(** What a pass logs is taken by one of the two handlers, except the
    exception the pass ends with, which neither of them takes. *)
Lemma loop_body_raised (s : State) :
  Forall handled (raised s) ->
  match loop_body s with
  | Ok _ s' => Forall handled (raised s')
  | Raise e s' =>
      exists c rest,
        raised s' = (c, global_step s', e) :: rest
        /\ is_handled (c, global_step s', e) = false
        /\ Forall handled rest
  end.
Proof.
  intros H. unfold_body. split_cases.
  all: simpl_body.
  all: try (repeat (constructor; [reflexivity|]); exact H).
  all: eexists _, _; (split; [reflexivity|]); (split; [reflexivity|]).
  all: repeat (constructor; [reflexivity|]); exact H.
Qed.

(** The scheduler's own bound check never fires: the guard keeps the
    position below the horizon. *)
Lemma loop_body_horizon (s : State) :
  last_epoch s <= global_step s ->
  Forall from_outside_if_horizon (raised s) ->
  match loop_body s with
  | Ok _ s' => Forall from_outside_if_horizon (raised s')
  | Raise _ s' => Forall from_outside_if_horizon (raised s')
  end.
Proof.
  intros Hpos H. unfold_body. split_cases.
  all: try match goal with
       | Hg : (S (global_step ?s0) <? WARM_STEPS + COOL_STEPS) = true,
         Hh : (total_steps <? S (last_epoch ?s0)) = true |- _ =>
           exfalso; apply Nat.ltb_lt in Hg; apply Nat.ltb_lt in Hh;
           unfold total_steps in Hh; lia
       end.
  all: simpl_body.
  all: repeat (constructor;
               [ match goal with
                 | |- from_outside_if_horizon (_, _, ?e) =>
                     try (is_var e; destruct e); simpl; first [exact I | assumption]
                 end | ]);
    exact H.
Qed.

Lemma saved_steps_samples (model : Model) (out : list event) :
  saved_steps (sample_printouts model ++ out) = saved_steps out.
Proof. reflexivity. Qed.

Lemma saved_paths_samples (model : Model) (out : list event) :
  saved_paths (sample_printouts model ++ out) = saved_paths out.
Proof. reflexivity. Qed.


Lemma loop_body_saved (s : State) :
  match loop_body s with
  | Ok _ s' => saved_delta s s'
  | Raise _ s' =>
      saved_steps (output s') = saved_steps (output s)
      /\ saved_paths (output s') = saved_paths (output s)
  end.
Proof.
  unfold saved_delta. unfold_body. split_cases.
  all: simpl_body;
    rewrite ?saved_steps_samples, ?saved_paths_samples; simpl_body.
  all: first [ split; reflexivity | left; split; reflexivity | right; split; reflexivity ].
Qed.

(** *** The loop as a whole *)

(** Invariant rule for [train_loop]. *)
Lemma train_loop_rule (P : State -> Prop) (Q : outcome -> Prop) :
  (forall s, P s -> global_step s < MAX_STEPS ->
     match loop_body s with
     | Ok true s' => Q (Finished s')
     | Ok false s' => P s'
     | Raise e s' => Q (Halted e s')
     end) ->
  (forall s, P s -> MAX_STEPS <= global_step s -> Q (Finished s)) ->
  forall fuel s o, P s -> train_loop fuel s = Some o -> Q o.
Proof.
  intros Hbody Hexit. induction fuel as [|fuel IH]; intros s o HP; simpl.
  - destruct (Nat.ltb_spec (global_step s) MAX_STEPS); [discriminate|].
    intros [= <-]. auto.
  - destruct (Nat.ltb_spec (global_step s) MAX_STEPS) as [Hlt|Hge].
    + specialize (Hbody s HP Hlt).
      destruct (loop_body s) as [[|] s'|e s'].
      * intros [= <-]. exact Hbody.
      * apply IH. exact Hbody.
      * intros [= <-]. exact Hbody.
    + intros [= <-]. auto.
Qed.

(** The loop needs no more passes than the budget that is left. *)
Lemma train_loop_total (fuel : nat) (s : State) :
  MAX_STEPS - global_step s <= fuel -> exists o, train_loop fuel s = Some o.
Proof.
  revert s; induction fuel as [|fuel IH]; intros s Hfuel; simpl.
  - destruct (Nat.ltb_spec (global_step s) MAX_STEPS); [lia | eauto].
  - destruct (Nat.ltb_spec (global_step s) MAX_STEPS) as [Hlt|Hge]; [|eauto].
    pose proof (loop_body_counts s) as Hc.
    destruct (loop_body s) as [[|] s'|e s']; eauto.
    apply IH. lia.
Qed.

Lemma run_total : exists o, run = Some o.
Proof. apply train_loop_total. simpl. lia. Qed.

Lemma scheduler_inv_init : scheduler_inv init_state.
Proof. constructor; simpl; auto; lia. Qed.

Lemma scheduler_inv_step (s s' : State) :
  scheduler_inv s -> scheduler_delta s s' ->
  global_step s' = S (global_step s) ->
  Forall from_outside_if_horizon (raised s') ->
  scheduler_inv s'.
Proof.
  intros [Hlen Hpos Hrange _] Hd Hg Hh. unfold total_steps in *.
  assert (Hweak : Forall (fun g => 1 <= g <= global_step s' /\ g < WARM_STEPS + COOL_STEPS)
                    (scheduler_calls s)).
  { eapply Forall_impl; [|exact Hrange]. simpl. intros g Hgr. lia. }
  destruct Hd as [(Ec & El & _) | (Hlt & Ec & El)].
  - constructor; rewrite ?Ec, ?El; unfold total_steps; auto; lia.
  - constructor; rewrite ?Ec; unfold total_steps; simpl; auto.
    + lia.
    + destruct El as [-> | ->]; lia.
    + constructor; [lia | exact Hweak].
Qed.

Lemma loop_body_scheduler_inv (s : State) :
  scheduler_inv s ->
  match loop_body s with
  | Ok _ s' => scheduler_inv s'
  | Raise _ s' => scheduler_inv s'
  end.
Proof.
  intros Hinv.
  assert (Hpos : last_epoch s <= global_step s).
  { destruct Hinv as [Hlen Hp _ _]. lia. }
  pose proof (loop_body_counts s) as Hc.
  pose proof (loop_body_scheduler s) as Hd.
  pose proof (@loop_body_horizon s Hpos (horizon_only_from_outside Hinv)) as Hh.
  destruct (loop_body s) as [b s'|e s']; eapply scheduler_inv_step; eauto.
Qed.

Lemma run_scheduler_inv (o : outcome) : run = Some o -> scheduler_inv (final_state o).
Proof.
  unfold run.
  apply (@train_loop_rule scheduler_inv (fun o => scheduler_inv (final_state o))).
  - intros s Hinv _. pose proof (loop_body_scheduler_inv Hinv) as H.
    destruct (loop_body s) as [[|] s'|e s']; exact H.
  - intros s Hinv _. exact Hinv.
  - exact scheduler_inv_init.
Qed.

Lemma saved_inv_init : saved_inv init_state.
Proof. constructor; simpl; constructor. Qed.

Lemma saved_inv_same (s s' : State) :
  saved_inv s ->
  saved_steps (output s') = saved_steps (output s) ->
  saved_paths (output s') = saved_paths (output s) ->
  global_step s' = S (global_step s) ->
  saved_inv s'.
Proof.
  intros [Hn Hp Hd] Es Ep Hg. constructor; rewrite ?Es, ?Ep; auto.
  eapply Forall_impl; [|exact Hp]. simpl. intros g Hle. lia.
Qed.

Lemma saved_inv_step (s s' : State) :
  saved_inv s -> saved_delta s s' ->
  global_step s' = S (global_step s) ->
  saved_inv s'.
Proof.
  intros Hinv [(Es & Ep) | (Es & Ep)] Hg; [eapply saved_inv_same; eauto|].
  destruct Hinv as [Hn Hp Hd].
  constructor; rewrite ?Es, ?Ep; simpl.
  - rewrite Hn. reflexivity.
  - constructor; [lia|]. eapply Forall_impl; [|exact Hp]. simpl. intros g Hle. lia.
  - constructor; [|exact Hd].
    intros Hin. rewrite Forall_forall in Hp. apply Hp in Hin. lia.
Qed.

Lemma run_saved_inv (o : outcome) : run = Some o -> saved_inv (final_state o).
Proof.
  unfold run.
  apply (@train_loop_rule saved_inv (fun o => saved_inv (final_state o))).
  - intros s Hinv _.
    pose proof (loop_body_counts s) as Hc. pose proof (loop_body_saved s) as Hd.
    destruct (loop_body s) as [[|] s'|e s']; simpl.
    + eapply saved_inv_step; eauto.
    + eapply saved_inv_step; eauto.
    + destruct Hd as [Es Ep]. eapply saved_inv_same; eauto.
  - intros s Hinv _. exact Hinv.
  - exact saved_inv_init.
Qed.

(** What the log of a finished or halted run looks like. *)
Lemma run_raised (o : outcome) :
  run = Some o ->
  match o with
  | Finished s => Forall handled (raised s)
  | Halted e s =>
      exists c rest,
        raised s = (c, global_step s, e) :: rest
        /\ is_handled (c, global_step s, e) = false
        /\ Forall handled rest
  end.
Proof.
  unfold run.
  apply (@train_loop_rule (fun s => Forall handled (raised s))
           (fun o => match o with
                     | Finished s => Forall handled (raised s)
                     | Halted e s =>
                         exists c rest,
                           raised s = (c, global_step s, e) :: rest
                           /\ is_handled (c, global_step s, e) = false
                           /\ Forall handled rest
                     end)).
  - intros s Hinv _. pose proof (loop_body_raised s Hinv) as H.
    destruct (loop_body s) as [[|] s'|e s']; exact H.
  - intros s Hinv _. exact Hinv.
  - constructor.
Qed.

(** *** The iterator *)

Lemma loop_body_iterator (n : nat) (s : State) :
  (forall i, length (train_dataloader i) = n) ->
  length (train_iterator s) <= n ->
  match loop_body s with
  | Ok _ s' => length (train_iterator s') <= n /\ 0 < n
  | Raise _ s' => length (train_iterator s') <= n
  end.
Proof.
  intros Hlen Hit. pose proof (Hlen (passes_started s)) as Hp.
  unfold_body. split_cases.
  all: simpl_body.
  all: repeat match goal with
       | H : train_iterator _ = _ |- _ => rewrite H in *; clear H
       | H : train_dataloader _ = _ |- _ => rewrite H in *; clear H
       end.
  all: simpl in Hit, Hp; simpl; try split; lia.
Qed.

Lemma after_steps_iterator (n k : nat) (s : State) :
  (forall i, length (train_dataloader i) = n) ->
  after_steps k = Some s ->
  length (train_iterator s) <= n /\ (0 < k -> 0 < n).
Proof.
  intros Hlen. revert s; induction k as [|k IH]; intros s; simpl.
  - intros [= <-]. simpl. rewrite Hlen. split; [lia | lia].
  - destruct (after_steps k) as [s0|]; [|discriminate].
    destruct (global_step s0 <? MAX_STEPS); [|discriminate].
    destruct (IH s0 eq_refl) as [Hit _].
    pose proof (loop_body_iterator s0 Hlen Hit) as Hb.
    destruct (loop_body s0) as [[|] s'|e s']; try discriminate.
    intros [= <-]. destruct Hb as [Hb Hn]. split; auto.
Qed.

(** The handler at work: the first [next] finds nothing, the second
    one reads the head of a fresh pass. *)
Lemma fetch_after_exhaustion (s : State) (batch : Batch) (rest : list Batch) :
  train_iterator s = [] ->
  fault AtNext (global_step s) = None ->
  fault AtRestart (global_step s) = None ->
  train_dataloader (passes_started s) = batch :: rest ->
  exists s',
    fetch_batch s = Ok batch s'
    /\ epoch s' = S (epoch s)
    /\ global_step s' = global_step s
    /\ train_iterator s' = rest
    /\ passes_started s' = S (passes_started s)
    /\ mytransformer s' = mytransformer s
    /\ output s' = output s.
Proof.
  intros Hit Hn Hr Hd.
  cbv beta delta [fetch_batch next_train_iterator iter_train_dataloader
    on_StopIteration try_except call throw modify get ret bind].
  simpl_body. rewrite Hn. simpl_body. rewrite Hit. simpl_body.
  rewrite Hr. simpl_body. rewrite Hd. simpl_body.
  eexists. repeat split; reflexivity.
Qed.

(** With an empty loader the second [next] raises as well, and this
    [StopIteration] is not taken by any handler. *)
Lemma fetch_from_empty_loader (s : State) :
  train_iterator s = [] ->
  fault AtNext (global_step s) = None ->
  fault AtRestart (global_step s) = None ->
  train_dataloader (passes_started s) = [] ->
  exists s', fetch_batch s = Raise StopIteration s'.
Proof.
  intros Hit Hn Hr Hd.
  cbv beta delta [fetch_batch next_train_iterator iter_train_dataloader
    on_StopIteration try_except call throw modify get ret bind].
  simpl_body. rewrite Hn. simpl_body. rewrite Hit. simpl_body.
  rewrite Hr. simpl_body. rewrite Hd. simpl_body.
  eexists. reflexivity.
Qed.

(** *** Evaluation *)

(** The loop appends before it tests [idx >= EVAL_STEPS]. *)
Lemma eval_loop_reads_from (model : Model) (batches : list Batch) :
  forall idx eval_losses,
    eval_loop model idx batches eval_losses
    = eval_losses ++ map (batch_eval_loss model) (firstn (S (EVAL_STEPS - idx)) batches).
Proof.
  induction batches as [|b batches IH]; intros idx acc.
  - simpl. rewrite app_nil_r. reflexivity.
  - cbn [eval_loop firstn map].
    destruct (Nat.leb_spec EVAL_STEPS idx) as [Hle|Hlt].
    + replace (EVAL_STEPS - idx) with 0 by lia. reflexivity.
    + rewrite IH, <- app_assoc. simpl.
      replace (EVAL_STEPS - idx) with (S (EVAL_STEPS - S idx)) by lia. reflexivity.
Qed.

Lemma eval_loop_reads (model : Model) :
  eval_loop model 0 valid_dataloader []
  = map (batch_eval_loss model) (firstn (S EVAL_STEPS) valid_dataloader).
Proof. rewrite eval_loop_reads_from, Nat.sub_0_r. reflexivity. Qed.

(** *** A pass in which nothing fails *)


End LoopFacts.

(** ** The scheduler *)

(** C3. In every run the scheduler's position stays within the
    configured schedule length [WARM_STEPS + COOL_STEPS], and so does the
    number of times [scheduler.step()] is entered; the scheduler's own
    "stepped too often" error is never raised (a logged one can only
    have come from outside).  Once the counter has reached the schedule
    length, the guarded step is a no-op that returns normally, and a
    whole pass through the loop body leaves the scheduler's position and
    the learning rate as they were: training goes on without further
    learning-rate updates. *)
Theorem scheduler_never_passes_horizon (W : Collaborators) (cfg : Config) :
  (exists o, run = Some o
     /\ last_epoch (final_state o) <= total_steps
     /\ length (scheduler_calls (final_state o)) <= total_steps
     /\ Forall from_outside_if_horizon (raised (final_state o)))
  /\ (forall s : State, total_steps <= global_step s -> step_scheduler s = Ok tt s)
  /\ (forall s : State, total_steps <= S (global_step s) ->
        match loop_body s with
        | Ok _ s' | Raise _ s' =>
            scheduler_calls s' = scheduler_calls s
            /\ last_epoch s' = last_epoch s /\ lr s' = lr s
        end).
Proof.
  split; [|split].
  - destruct run_total as [o Ho]. exists o. split; [exact Ho|].
    destruct (run_scheduler_inv Ho) as [Hlen Hpos _ Hh].
    repeat split; [lia | lia | exact Hh].
  - intros s Hs. unfold step_scheduler, bind, get. unfold total_steps in Hs.
    destruct (Nat.ltb_spec (global_step s) (WARM_STEPS + COOL_STEPS)); [lia | reflexivity].
  - intros s Hs. pose proof (loop_body_scheduler s) as Hd. unfold total_steps in Hs.
    destruct (loop_body s) as [b s'|e s'];
      (destruct Hd as [Hsame | (Hlt & _)]; [exact Hsame | lia]).
Qed.

Lemma scheduler_never_passes_horizon_witness :
  @total_steps Toy.past_schedule <= global_step Toy.late_state
  /\ @step_scheduler Toy.world Toy.past_schedule Toy.late_state = Ok tt Toy.late_state
  /\ (exists s', @run Toy.world Toy.past_schedule = Some (Finished s')
                 /\ global_step s' = 4 /\ last_epoch s' = 1
                 /\ scheduler_calls s' = [1] /\ lr s' = 1).
Proof.
  destruct (@scheduler_never_passes_horizon Toy.world Toy.past_schedule) as (_ & Hnoop & _).
  assert (Hs : @total_steps Toy.past_schedule <= global_step Toy.late_state)
    by (vm_compute; lia).
  split; [exact Hs|]. split; [exact (Hnoop Toy.late_state Hs)|].
  vm_compute. eexists. repeat split; reflexivity.
Defined.

(** C10. In every run [scheduler.step()] is entered only in passes whose
    already incremented counter is below [WARM_STEPS + COOL_STEPS]; it is
    therefore entered at most [WARM_STEPS + COOL_STEPS - 1] times, one
    short of [total_steps], and the scheduler's position ends at most at
    [total_steps - 1], whatever the budget [MAX_STEPS]. *)
Theorem scheduler_entered_only_below_horizon (W : Collaborators) (cfg : Config) :
  exists o, run = Some o
    /\ Forall (fun g => 1 <= g <= global_step (final_state o)
                        /\ g < WARM_STEPS + COOL_STEPS)
              (scheduler_calls (final_state o))
    /\ length (scheduler_calls (final_state o)) <= WARM_STEPS + COOL_STEPS - 1
    /\ last_epoch (final_state o) <= total_steps - 1.
Proof.
  destruct run_total as [o Ho]. exists o. split; [exact Ho|].
  destruct (run_scheduler_inv Ho) as [Hlen Hpos Hrange _].
  unfold total_steps in *. repeat split; [exact Hrange | lia | lia].
Qed.

(** With a budget equal to the schedule length (3 steps) the bound is
    met: two calls, at steps 1 and 2, and none at step 3. *)
Lemma budget_equal_to_schedule_example :
  exists s, @run Toy.world Toy.budget_is_schedule = Some (Finished s)
            /\ global_step s = 3 /\ scheduler_calls s = [2; 1] /\ last_epoch s = 2.
Proof. vm_compute. eexists. repeat split; reflexivity. Qed.

(** ** The iterator *)

(** C4. Take any loop-head state reached after at least one completed
    pass, with the training iterator exhausted, in a run whose loader
    yields the same number of batches in every pass.  Unless a call
    fails for reasons of its own, the fetch of the next pass succeeds:
    the iterator is rebuilt from the loader, the batch returned is the
    first one of the fresh pass, the epoch counter has gone up by exactly
    one, and the global step counter is what it was before the fetch. *)
Theorem exhausted_iterator_is_rebuilt
    (W : Collaborators) (cfg : Config) (k : nat) (s : State) :
  (forall i, length (train_dataloader i) = length (train_dataloader 0)) ->
  after_steps k = Some s -> 0 < k ->
  train_iterator s = [] ->
  fault AtNext (S (global_step s)) = None ->
  fault AtRestart (S (global_step s)) = None ->
  exists batch rest s',
    train_dataloader (passes_started s) = batch :: rest
    /\ fetch_batch (set_global_step (S (global_step s)) s) = Ok batch s'
    /\ epoch s' = S (epoch s)
    /\ global_step s' = global_step (set_global_step (S (global_step s)) s)
    /\ train_iterator s' = rest
    /\ passes_started s' = S (passes_started s)
    /\ mytransformer s' = mytransformer s.
Proof.
  intros Hlen Hk Hpos Hit Hn Hr.
  destruct (after_steps_iterator k Hlen Hk) as [_ Hne]. specialize (Hne Hpos).
  destruct (train_dataloader (passes_started s)) as [|batch rest] eqn:Hd.
  { pose proof (Hlen (passes_started s)) as E. rewrite Hd in E. simpl in E. lia. }
  destruct (@fetch_after_exhaustion W (set_global_step (S (global_step s)) s) batch rest)
    as (s' & Hf & He & Hg & Hi & Hp & Hm & _); auto.
  exists batch, rest, s'. repeat split; auto.
Qed.

Lemma exhausted_iterator_is_rebuilt_witness :
  @after_steps Toy.world Toy.short_run 1 = Some Toy.after_one_pass
  /\ train_iterator Toy.after_one_pass = []
  /\ exists batch rest s',
       @train_dataloader Toy.world (passes_started Toy.after_one_pass) = batch :: rest
       /\ @fetch_batch Toy.world
            (set_global_step (S (global_step Toy.after_one_pass)) Toy.after_one_pass)
          = Ok batch s'
       /\ epoch s' = S (epoch Toy.after_one_pass)
       /\ global_step s'
          = global_step (set_global_step (S (global_step Toy.after_one_pass))
                                         Toy.after_one_pass)
       /\ train_iterator s' = rest
       /\ passes_started s' = S (passes_started Toy.after_one_pass)
       /\ mytransformer s' = mytransformer Toy.after_one_pass.
Proof.
  split; [vm_compute; reflexivity|].
  split; [vm_compute; reflexivity|].
  apply (@exhausted_iterator_is_rebuilt Toy.world Toy.short_run 1 Toy.after_one_pass).
  - intros i. reflexivity.
  - vm_compute. reflexivity.
  - lia.
  - vm_compute. reflexivity.
  - reflexivity.
  - reflexivity.
Defined.

(** ** Evaluation *)

(** The claimed cap fails already on a validation loader with a single
    batch: that batch is the whole validation set, and it is read. *)
Lemma evaluation_is_capped_and_partial_fails : ~ evaluation_is_capped_and_partial.
Proof.
  intros H.
  destruct (H Toy.world Toy.short_run 0) as (k & _ & Hk & E).
  simpl in Hk. assert (k = 0) by lia. subst k.
  vm_compute in E. discriminate E.
Qed.

(** C6 (amended). The loss an evaluation reports is the mean of the
    per-batch losses over an initial run of the validation batches.  The
    run contains the first [EVAL_STEPS] batches (all of them when there
    are fewer), never has more than [EVAL_STEPS + 1], and is the whole
    validation set whenever that set has no more than [EVAL_STEPS]
    batches. *)
Theorem evaluation_reads_bounded_prefix
    (W : Collaborators) (cfg : Config) (model : Model) :
  exists k : nat,
    eval_loop model 0 valid_dataloader []
    = map (batch_eval_loss model) (firstn k valid_dataloader)
    /\ reported_eval_loss model
       = np_mean (map (batch_eval_loss model) (firstn k valid_dataloader))
    /\ Nat.min EVAL_STEPS (length valid_dataloader) <= k
    /\ k <= S EVAL_STEPS
    /\ (length valid_dataloader <= EVAL_STEPS ->
        firstn k valid_dataloader = valid_dataloader).
Proof.
  exists (S EVAL_STEPS). unfold reported_eval_loss. rewrite eval_loop_reads.
  repeat split; try lia.
  intros Hle. apply firstn_all2. lia.
Qed.

Lemma evaluation_reads_bounded_prefix_witness :
  length (@valid_dataloader Toy.world) <= @EVAL_STEPS Toy.short_run
  /\ exists k : nat,
       @eval_loop Toy.world Toy.short_run 0 0 (@valid_dataloader Toy.world) []
       = map (@batch_eval_loss Toy.world 0) (firstn k (@valid_dataloader Toy.world))
       /\ firstn k (@valid_dataloader Toy.world) = @valid_dataloader Toy.world.
Proof.
  assert (Hle : length (@valid_dataloader Toy.world) <= @EVAL_STEPS Toy.short_run)
    by (vm_compute; lia).
  split; [exact Hle|].
  destruct (@evaluation_reads_bounded_prefix Toy.world Toy.short_run 0)
    as (k & E & _ & _ & _ & Hall).
  exists k. split; [exact E | exact (Hall Hle)].
Defined.

(** ** Checkpoints *)

Lemma NoDup_map_injective {A B : Type} (f : A -> B) (l : list A) :
  (forall a b, f a = f b -> a = b) -> NoDup l -> NoDup (map f l).
Proof.
  intros Hinj. induction 1 as [|a l Hnot Hnd IH]; simpl; constructor; auto.
  intros Hin. apply in_map_iff in Hin as (b & E & Hb).
  apply Hinj in E. subst b. contradiction.
Qed.

(** C7. The path of a checkpoint is a fixed prefix, then the global step
    written in decimal and zero-filled to at least eight digits (from
    which the step can be read back), then [".pt"].  Different steps give
    different paths, and in every run the paths written are pairwise
    different: no checkpoint of a run overwrites another. *)
Theorem checkpoint_paths_never_collide (W : Collaborators) (cfg : Config) :
  (forall g : nat,
     Naming.checkpoint_path g
     = (Naming.checkpoint_prefix ++ Naming.format_08d g ++ ".pt")%string
     /\ 8 <= String.length (Naming.format_08d g)
     /\ Naming.parse_nat (Naming.format_08d g) = Some g)
  /\ (forall g1 g2 : nat,
        g1 <> g2 -> Naming.checkpoint_path g1 <> Naming.checkpoint_path g2)
  /\ (exists o, run = Some o
        /\ saved_paths (output (final_state o))
           = map Naming.checkpoint_path (saved_steps (output (final_state o)))
        /\ NoDup (saved_paths (output (final_state o)))).
Proof.
  split; [|split].
  - intros g. split; [apply checkpoint_path_shape|].
    split; [apply format_08d_width | apply parse_format_08d].
  - intros g1 g2 Hne E. apply Hne. apply checkpoint_path_inj. exact E.
  - destruct run_total as [o Ho]. exists o. split; [exact Ho|].
    destruct (run_saved_inv Ho) as [Hn _ Hd].
    split; [exact Hn|]. rewrite Hn.
    apply NoDup_map_injective; [|exact Hd].
    intros a b. apply checkpoint_path_inj.
Qed.

Lemma checkpoint_paths_never_collide_witness :
  1 <> 2
  /\ @Naming.checkpoint_path (Toy.scenario false) 1
     <> @Naming.checkpoint_path (Toy.scenario false) 2
  /\ @Naming.checkpoint_path (Toy.scenario false) 1
     = "/mnt/data/checkpoints/translation_en_nl/checkpoint_v16-00000001.pt"%string.
Proof.
  assert (Hne : 1 <> 2) by lia.
  destruct (@checkpoint_paths_never_collide Toy.world (Toy.scenario false))
    as (_ & Hdiff & _).
  split; [exact Hne|]. split; [exact (Hdiff 1 2 Hne) | reflexivity].
Defined.

(** ** Exceptions *)

(** An interrupt that arrives inside [scheduler.step()] is neither an
    exhausted iterator nor the scheduler's horizon error, yet the bare
    [except] takes it and the run finishes both steps. *)
Lemma every_other_exception_halts_fails : ~ every_other_exception_halts.
Proof.
  intros H.
  assert (Hrun : exists s, @run Toy.interrupted_scheduler Toy.short_run = Some (Finished s)
                           /\ raised s = [(AtNext, 2, StopIteration);
                                           (AtScheduler, 1, KeyboardInterrupt)]
                           /\ global_step s = 2).
  { vm_compute. eexists. repeat split; reflexivity. }
  destruct Hrun as (s & Hrun & Hlog & _).
  specialize (H Toy.interrupted_scheduler Toy.short_run (Finished s)
                AtScheduler 1 KeyboardInterrupt Hrun).
  simpl in H. rewrite Hlog in H.
  assert (E : Finished s = Halted KeyboardInterrupt s).
  { apply H; [right; left; reflexivity | discriminate | discriminate]. }
  discriminate E.
Qed.

(** C8 (amended). The two handlers take exactly this: [StopIteration]
    out of the guarded [next(train_iterator)], and anything at all out of
    [scheduler.step()].  Every run ends in one of two ways.  Either the
    loop is left normally, and then whatever was raised on the way was
    taken by one of the handlers; or the run halts with an exception that
    neither handler takes, raised in the pass the run stopped in and
    logged last: nothing ran after it, and the state is the one it left
    behind. *)
Theorem unhandled_exception_halts (W : Collaborators) (cfg : Config) :
  (forall c g e,
     is_handled (c, g, e) = true
     <-> (c = AtNext /\ e = StopIteration) \/ c = AtScheduler)
  /\ exists o, run = Some o
       /\ match o with
          | Finished s => Forall handled (raised s)
          | Halted e s =>
              exists c rest,
                raised s = (c, global_step s, e) :: rest
                /\ is_handled (c, global_step s, e) = false
                /\ Forall handled rest
          end.
Proof.
  split.
  - intros c g e. destruct c, e; simpl; split; intros H;
      try discriminate; try reflexivity; auto;
      destruct H as [[? ?] | ?]; discriminate.
  - destruct run_total as [o Ho]. exists o. split; [exact Ho|].
    apply run_raised. exact Ho.
Qed.

Lemma unhandled_exception_halts_witness :
  is_handled (AtForward, 2, RuntimeError) <> true
  /\ exists s, @run Toy.failing_forward Toy.short_run = Some (Halted RuntimeError s)
               /\ global_step s = 2
               /\ mytransformer s = 1.
Proof.
  destruct (@unhandled_exception_halts Toy.failing_forward Toy.short_run)
    as (Hiff & _).
  split.
  - intros H. apply Hiff in H. destruct H as [[H _] | H]; discriminate H.
  - vm_compute. eexists. repeat split; reflexivity.
Defined.

(** ** The end-to-end scenario *)





(** With the demo flag cleared the same scenario runs both steps and
    writes two checkpoints. *)
Lemma scenario_without_demo_flag_example :
  exists s,
    @run (Toy.corpus_world (Toy.scenario false)) (Toy.scenario false) = Some (Finished s)
    /\ global_step s = 2
    /\ length (saved_paths (output s)) = 2
    /\ eval_prints (output s) = 2.
Proof. vm_compute. eexists. repeat split; reflexivity. Qed.
